(** * The Setup screen of DevFinder: registration pipeline and its state

    A shallow embedding of [Setup] (the onboarding screen) and of the
    handlers it installs: [handleMapPress], [handleSignUp] and the text
    input's [onChangeText].  The React hooks of the component are a record;
    every state setter and every call of an outside capability (the two
    services, the authentication context, the navigator) is one [Call],
    performed on a [World] that also keeps the log of the calls made. *)

From Stdlib Require Import String List Bool ZArith PrimFloat Lia.
Import ListNotations.
Open Scope string_scope.
Open Scope list_scope.

(** ** Data *)

(** [LatLng] of react-native-maps: two JavaScript numbers. *)
Record LatLng := mkLatLng {
  latitude : float;
  longitude : float
}.

(** [Region] of react-native-maps: a centre and the two spans. *)
Record Region := mkRegion {
  region_latitude : float;
  region_longitude : float;
  latitudeDelta : float;
  longitudeDelta : float
}.

(** The object spread [{ ...region, ...curPos }]: the centre is replaced,
    the spans are kept. *)
Definition spread_region (r : Region) (c : LatLng) : Region :=
  {| region_latitude := latitude c;
     region_longitude := longitude c;
     latitudeDelta := latitudeDelta r;
     longitudeDelta := longitudeDelta r |}.

(** The state literal [{ ...DEFAULT_LOCATION, latitudeDelta: 0.004,
    longitudeDelta: 0.004 }]. *)
#[warnings="-inexact-float"]
Definition region_of (c : LatLng) : Region :=
  {| region_latitude := latitude c;
     region_longitude := longitude c;
     latitudeDelta := 0.004%float;
     longitudeDelta := 0.004%float |}.

(** What [getGitHubUserInfo] resolves with; [handleSignUp] reads these five
    fields of it. *)
Module GitHubUser.
Record t := mk {
  login : string;
  avatar_url : string;
  bio : option string;
  company : option string;
  name : option string
}.
End GitHubUser.

(** The argument [handleSignUp] builds for [postUser]. *)
Module NewUser.
Record t := mk {
  login : string;
  avatar_url : string;
  bio : option string;
  company : option string;
  name : option string;
  coordinates : LatLng
}.
End NewUser.

(** The events [handleMapPress] is installed for: [onPress] delivers a
    [MapPressEvent], [onPoiClick] a [PoiClickEvent]; both carry
    [nativeEvent.coordinate]. *)
Inductive MapEvent :=
| MapPressEvent (coordinate : LatLng)
| PoiClickEvent (coordinate : LatLng) (placeId : string) (poi_name : string).

Definition nativeEvent_coordinate (event : MapEvent) : LatLng :=
  match event with
  | MapPressEvent c => c
  | PoiClickEvent c _ _ => c
  end.

(** ** Rejection reasons

    A promise can be rejected with any JavaScript value.  The handlers of
    [handleSignUp] tell three kinds apart: [axios.isAxiosError(err)] (with
    [err.response?.status], absent when there was no response),
    [typeof err === 'string'], and everything else. *)
Inductive JsError :=
| AxiosError (response_status : option Z)
| StringError (s : string)
| OtherError (description : string).

Definition axios_isAxiosError (err : JsError) : bool :=
  match err with
  | AxiosError _ => true
  | _ => false
  end.

(** [err.response?.status == 404] *)
Definition response_status_is_404 (err : JsError) : bool :=
  match err with
  | AxiosError (Some status) => Z.eqb status 404
  | _ => false
  end.

(** [typeof err === 'string'] *)
Definition typeof_is_string (err : JsError) : option string :=
  match err with
  | StringError s => Some s
  | _ => None
  end.

Inductive Settled (A : Type) :=
| Fulfilled (value : A)
| Rejected (reason : JsError).
Arguments Fulfilled {A} value.
Arguments Rejected {A} reason.

(** ** The component's state and its surroundings *)

(** The six [useState] hooks of [Setup]. *)
Record SetupState := mkSetupState {
  username : string;
  isAuthenticating : bool;
  markerLocation : LatLng;
  currentRegion : Region;
  mapLocked : bool;
  errorMessage : option string
}.

(** The state of the first render; [DEFAULT_LOCATION] comes from
    [../utils/location]. *)
Definition initialState (DEFAULT_LOCATION : LatLng) : SetupState :=
  {| username := "";
     isAuthenticating := false;
     markerLocation := DEFAULT_LOCATION;
     currentRegion := region_of DEFAULT_LOCATION;
     mapLocked := true;
     errorMessage := None |}.

(** Every state setter and every capability the handlers call. *)
Inductive Call :=
| SetUsername (text : string)
| SetIsAuthenticating (b : bool)
| SetMarkerLocation (c : LatLng)
| SetCurrentRegion (r : Region)
| SetMapLocked (b : bool)
| SetErrorMessage (m : option string)
| GetGitHubUserInfo (user : string)
| PostUser (payload : NewUser.t)
| AuthSetValue (user : string)
| NavigationReplace (route : string).

(** The hooks, the value held by the authentication context (the session
    identity), the navigator's stack of routes (top first), and the calls
    made so far (oldest first). *)
Record World := mkWorld {
  hooks : SetupState;
  sessionIdentity : option string;
  routes : list string;
  calls : list Call
}.

Definition set_hooks (f : SetupState -> SetupState) (w : World) : World :=
  {| hooks := f (hooks w);
     sessionIdentity := sessionIdentity w;
     routes := routes w;
     calls := calls w |}.

(** [navigation.replace(name)] of a stack navigator: the route on top is
    exchanged for the new one, nothing is pushed. *)
Definition replace_top (route : string) (stack : list string) : list string :=
  match stack with
  | [] => [route]
  | _ :: below => route :: below
  end.

(** The effect of one call on the hooks, the context and the navigator.  The
    two services change nothing here: their outcome is their result. *)
Definition effect (c : Call) (w : World) : World :=
  match c with
  | SetUsername text =>
      set_hooks (fun s =>
        mkSetupState text (isAuthenticating s) (markerLocation s)
                     (currentRegion s) (mapLocked s) (errorMessage s)) w
  | SetIsAuthenticating b =>
      set_hooks (fun s =>
        mkSetupState (username s) b (markerLocation s)
                     (currentRegion s) (mapLocked s) (errorMessage s)) w
  | SetMarkerLocation loc =>
      set_hooks (fun s =>
        mkSetupState (username s) (isAuthenticating s) loc
                     (currentRegion s) (mapLocked s) (errorMessage s)) w
  | SetCurrentRegion r =>
      set_hooks (fun s =>
        mkSetupState (username s) (isAuthenticating s) (markerLocation s)
                     r (mapLocked s) (errorMessage s)) w
  | SetMapLocked b =>
      set_hooks (fun s =>
        mkSetupState (username s) (isAuthenticating s) (markerLocation s)
                     (currentRegion s) b (errorMessage s)) w
  | SetErrorMessage m =>
      set_hooks (fun s =>
        mkSetupState (username s) (isAuthenticating s) (markerLocation s)
                     (currentRegion s) (mapLocked s) m) w
  | GetGitHubUserInfo _ => w
  | PostUser _ => w
  | AuthSetValue user =>
      {| hooks := hooks w;
         sessionIdentity := Some user;
         routes := routes w;
         calls := calls w |}
  | NavigationReplace route =>
      {| hooks := hooks w;
         sessionIdentity := sessionIdentity w;
         routes := replace_top route (routes w);
         calls := calls w |}
  end.

(** Making a call: its effect, and one more entry in the log. *)
Definition perform (c : Call) (w : World) : World :=
  let w' := effect c w in
  {| hooks := hooks w';
     sessionIdentity := sessionIdentity w';
     routes := routes w';
     calls := calls w ++ [c] |}.

(** Making a sequence of calls, first to last. *)
Definition replay (cs : list Call) (w : World) : World :=
  fold_left (fun acc c => perform c acc) cs w.

(** ** Handlers as state-passing computations *)

Definition Action (A : Type) : Type := World -> A * World.

Definition ret {A} (a : A) : Action A := fun w => (a, w).

Definition bind {A B} (m : Action A) (k : A -> Action B) : Action B :=
  fun w => let (a, w') := m w in k a w'.

Definition call (c : Call) : Action unit := fun w => (tt, perform c w).

Declare Scope action_scope.
Delimit Scope action_scope with action.
Notation "x <- m ;; k" := (bind m (fun x => k))
  (at level 61, m at next level, right associativity) : action_scope.
Notation "m ;; k" := (bind m (fun _ => k))
  (at level 61, right associativity) : action_scope.
Open Scope action_scope.

(** A promise, seen when it has settled: the calls its handlers made, and
    how it settled. *)
Definition Promise (A : Type) : Type := Action (Settled A).

Definition resolve {A} (a : A) : Promise A := ret (Fulfilled a).
Definition reject {A} (err : JsError) : Promise A := ret (Rejected err).

(** [p.then(f)]: [f] runs on fulfilment; a rejection passes through. *)
Definition then_ {A B} (f : A -> Promise B) (p : Promise A) : Promise B :=
  r <- p ;;
  match r with
  | Fulfilled a => f a
  | Rejected err => reject err
  end.

(** [p.catch(h)]: [h] runs on rejection; a fulfilment passes through. *)
Definition catch_ {A} (h : JsError -> Promise A) (p : Promise A) : Promise A :=
  r <- p ;;
  match r with
  | Fulfilled a => resolve a
  | Rejected err => h err
  end.

(** [p.finally(k)]: [k] runs either way and the outcome of [p] is kept. *)
Definition finally_ {A} (k : Action unit) (p : Promise A) : Promise A :=
  r <- p ;;
  k ;;
  ret r.

(** Method chaining, [p.m(f)] written [p |> m f]. *)
Notation "p |> m" := (m p) (at level 59, left associativity, only parsing)
  : action_scope.

(** ** What the screen is given *)

(** The modules [Setup] imports its remote calls from.  Each function is
    given by the way its promise settles. *)
Record Services := mkServices {
  tryGetCurrentPosition : Settled LatLng;
  getGitHubUserInfo : string -> Settled GitHubUser.t;
  postUser : NewUser.t -> Settled unit
}.

(** Modelled from the spec: [AuthenticationContext] is declared in
    [../context/AuthenticationContext], which is not among these sources.
    [useContext] yields the provider's object, or [null] when no provider
    encloses the screen (the call site is guarded by [?.]).  The object's
    [setValue] is the Session Store's commit: it stores the user name,
    returns nothing and does not fail; that is the effect of [AuthSetValue]
    above. *)
Inductive AuthenticationContextValue :=
| ContextObject
| ContextNull.

Definition notFoundMessage : string :=
  "There is no such username on GitHub. Please try again.".

Definition fallbackMessage : string :=
  "Something went wrong. Please try again.".

(** ** The handlers of [Setup] *)

(** The values of the hooks a handler closes over. *)
Definition rendered : Action SetupState := fun w => (hooks w, w).

(** The [useEffect] of the first render. *)
Definition onMount (services : Services) : Promise unit :=
  render <- rendered ;;
  ret (tryGetCurrentPosition services)
    |> then_ (fun curPos =>
         call (SetMarkerLocation curPos) ;;
         call (SetCurrentRegion (spread_region (currentRegion render) curPos)) ;;
         resolve tt)
    |> catch_ (fun _ =>
         (* do nothing and keep the default location and region *)
         resolve tt).

Definition handleMapPress (event : MapEvent) : Action unit :=
  call (SetMarkerLocation (nativeEvent_coordinate event)).

(** The [onChangeText] of the text input. *)
Definition onChangeText (text : string) : Action unit :=
  call (SetUsername text) ;;
  call (SetErrorMessage None).

(** The argument of [postUser]. *)
Definition newUser (fromGitHub : GitHubUser.t) (coordinates : LatLng)
  : NewUser.t :=
  {| NewUser.login := GitHubUser.login fromGitHub;
     NewUser.avatar_url := GitHubUser.avatar_url fromGitHub;
     NewUser.bio := GitHubUser.bio fromGitHub;
     NewUser.company := GitHubUser.company fromGitHub;
     NewUser.name := GitHubUser.name fromGitHub;
     NewUser.coordinates := coordinates |}.

(** [authenticationContext?.setValue(username)] *)
Definition authenticationContext_setValue
    (authenticationContext : AuthenticationContextValue) (user : string)
  : Action unit :=
  match authenticationContext with
  | ContextObject => call (AuthSetValue user)
  | ContextNull => ret tt
  end.

(** The promise chain [handleSignUp] starts, over the [username] and the
    [markerLocation] of the render the handler belongs to. *)
Definition signUpChain (services : Services)
    (authenticationContext : AuthenticationContextValue)
    (username : string) (markerLocation : LatLng) : Promise unit :=
  (call (GetGitHubUserInfo username) ;;
   ret (getGitHubUserInfo services username))
    |> catch_ (fun err =>
         if axios_isAxiosError err && response_status_is_404 err
         then reject (StringError notFoundMessage)
         else reject err)
    |> then_ (fun fromGitHub =>
         let payload := newUser fromGitHub markerLocation in
         call (PostUser payload) ;;
         ret (postUser services payload))
    |> then_ (fun _ =>
         authenticationContext_setValue authenticationContext username ;;
         call (SetMapLocked false) ;;
         call (NavigationReplace "Main") ;;
         resolve tt)
    |> catch_ (fun err =>
         match typeof_is_string err with
         | Some message => call (SetErrorMessage (Some message))
         | None => call (SetErrorMessage (Some fallbackMessage))
         end ;;
         resolve tt)
    |> finally_ (call (SetIsAuthenticating false)).

(** [handleSignUp] is an [async] function that neither awaits nor returns
    the chain: its own promise is fulfilled once the body has run.  The
    result below pairs that promise with the way the chain settles.  The
    chain is followed to its end: a run is observed on its own, no other
    handler of the screen running while the remote calls are pending. *)
Definition handleSignUp (services : Services)
    (authenticationContext : AuthenticationContextValue)
  : Action (Settled unit * Settled unit) :=
  render <- rendered ;;
  call (SetIsAuthenticating true) ;;
  chain <- signUpChain services authenticationContext
             (username render) (markerLocation render) ;;
  ret (Fulfilled tt, chain).

(** ** Observing one run of [handleSignUp] *)

(** The world a run of [handleSignUp] ends in. *)
Definition afterSignUp (services : Services)
    (authenticationContext : AuthenticationContextValue) (w : World) : World :=
  snd (handleSignUp services authenticationContext w).

(** The calls the run made: what it added to the log. *)
Definition signUpCalls (services : Services)
    (authenticationContext : AuthenticationContextValue) (w : World)
  : list Call :=
  skipn (length (calls w)) (calls (afterSignUp services authenticationContext w)).

(** The worlds a sequence of calls passes through: the one after each call
    but the last. *)
Fixpoint intermediate (cs : list Call) (w : World) : list World :=
  match cs with
  | [] => []
  | c :: rest =>
      match rest with
      | [] => []
      | _ :: _ => perform c w :: intermediate rest (perform c w)
      end
  end.

Definition count_calls (p : Call -> bool) (cs : list Call) : nat :=
  length (filter p cs).

Definition is_busy_reset (c : Call) : bool :=
  match c with
  | SetIsAuthenticating false => true
  | _ => false
  end.

Definition is_busy_set (c : Call) : bool :=
  match c with
  | SetIsAuthenticating true => true
  | _ => false
  end.

Definition writes_errorMessage (c : Call) : bool :=
  match c with
  | SetErrorMessage _ => true
  | _ => false
  end.

Definition clears_errorMessage (c : Call) : bool :=
  match c with
  | SetErrorMessage None => true
  | _ => false
  end.

Definition navigates (c : Call) : bool :=
  match c with
  | NavigationReplace _ => true
  | _ => false
  end.

Definition commits_identity (c : Call) : bool :=
  match c with
  | AuthSetValue _ => true
  | _ => false
  end.

(** The two remote calls of a run, seen from the render [s] the handler
    belongs to: does one of them reject? *)
Definition signUpFails (services : Services) (s : SetupState) : bool :=
  match getGitHubUserInfo services (username s) with
  | Rejected _ => true
  | Fulfilled fromGitHub =>
      match postUser services (newUser fromGitHub (markerLocation s)) with
      | Rejected _ => true
      | Fulfilled _ => false
      end
  end.

(** The lookup reports not-found: an axios error whose response has status
    404. *)
Definition NotFound (services : Services) (s : SetupState) : Prop :=
  exists err,
    getGitHubUserInfo services (username s) = Rejected err /\
    axios_isAxiosError err = true /\
    response_status_is_404 err = true.

(** A failure of the lookup or of the registration other than not-found,
    with the value the promise is rejected with. *)
Inductive OtherFailure (services : Services) (s : SetupState)
  : JsError -> Prop :=
| LookupFails err :
    getGitHubUserInfo services (username s) = Rejected err ->
    axios_isAxiosError err && response_status_is_404 err = false ->
    OtherFailure services s err
| RegistrationFails fromGitHub err :
    getGitHubUserInfo services (username s) = Fulfilled fromGitHub ->
    postUser services (newUser fromGitHub (markerLocation s)) = Rejected err ->
    OtherFailure services s err.

(** The message the last [catch] of the chain shows for a rejection. *)
Definition shownMessage (err : JsError) : string :=
  match typeof_is_string err with
  | Some message => message
  | None => fallbackMessage
  end.

(** The calls of [authenticationContext?.setValue(user)]. *)
Definition commitCalls (authenticationContext : AuthenticationContextValue)
    (user : string) : list Call :=
  match authenticationContext with
  | ContextObject => [AuthSetValue user]
  | ContextNull => []
  end.

(** ** Sample surroundings *)

Module Sample.

Definition calgary : LatLng := mkLatLng 51.0%float (-114.0)%float.

Definition octocat : GitHubUser.t :=
  GitHubUser.mk "octocat" "https://github.com/images/octocat.png"
                None (Some "@github") (Some "The Octocat").

(** A screen on which "octocat" has been typed. *)
Definition typed : SetupState :=
  {| username := "octocat";
     isAuthenticating := false;
     markerLocation := calgary;
     currentRegion := region_of calgary;
     mapLocked := true;
     errorMessage := None |}.

Definition world (s : SetupState) : World :=
  {| hooks := s; sessionIdentity := None; routes := ["Setup"]; calls := [] |}.

(** Lookup and registration both succeed. *)
Definition online : Services :=
  {| tryGetCurrentPosition := Fulfilled calgary;
     getGitHubUserInfo := fun _ => Fulfilled octocat;
     postUser := fun _ => Fulfilled tt |}.

(** GitHub answers 404. *)
Definition unknownUser : Services :=
  {| tryGetCurrentPosition := Fulfilled calgary;
     getGitHubUserInfo := fun _ => Rejected (AxiosError (Some 404%Z));
     postUser := fun _ => Fulfilled tt |}.

(** The lookup succeeds, the registration is answered with status 500. *)
Definition serverDown : Services :=
  {| tryGetCurrentPosition := Fulfilled calgary;
     getGitHubUserInfo := fun _ => Fulfilled octocat;
     postUser := fun _ => Rejected (AxiosError (Some 500%Z)) |}.

(** The registration promise is rejected with a string. *)
Definition rejectsWithString : Services :=
  {| tryGetCurrentPosition := Fulfilled calgary;
     getGitHubUserInfo := fun _ => Fulfilled octocat;
     postUser := fun _ => Rejected (StringError "quota exceeded") |}.

(** The screen after a sign-up that met [serverDown], the username left
    as typed. *)
Definition failedOnce : World :=
  afterSignUp serverDown ContextObject (world typed).

End Sample.

(** ** What the screen draws *)

(** Truthiness of a [string | null], as in [errorMessage && (...)]: [null]
    and the empty string are falsy. *)
Definition truthy (m : option string) : bool :=
  match m with
  | Some (String _ _) => true
  | Some EmptyString => false
  | None => false
  end.

(** The parts of the element tree that depend on the hooks: the map's
    [region], the marker's [coordinate], the blocker drawn over the map
    ([mapLocked && ...]), the error box with its text
    ([errorMessage && ...]) and the spinner's [visible]. *)
Record Screen := mkScreen {
  mapView_region : Region;
  marker_coordinate : LatLng;
  mapBlocker : bool;
  errorBox : option string;
  spinner_visible : bool
}.

Definition render (s : SetupState) : Screen :=
  {| mapView_region := currentRegion s;
     marker_coordinate := markerLocation s;
     mapBlocker := mapLocked s;
     errorBox := if truthy (errorMessage s) then errorMessage s else None;
     spinner_visible := isAuthenticating s |}.

(** ** The handlers, one after the other *)

(** What the rendered tree hands its handlers to: the map ([onPress] and
    [onPoiClick]), the text input ([onChangeText]) and the button
    ([onPress]).  A press of the button comes with the way the remote calls
    settle that time. *)
Inductive Event :=
| MapPressed (event : MapEvent)
| TextChanged (text : string)
| ButtonPressed (services : Services).

Definition dispatch (authenticationContext : AuthenticationContextValue)
    (e : Event) : Action unit :=
  match e with
  | MapPressed event => handleMapPress event
  | TextChanged text => onChangeText text
  | ButtonPressed services =>
      handleSignUp services authenticationContext ;; ret tt
  end.

(** The events in turn, each handler run to its end before the next event:
    a press of the button is followed until its chain has settled. *)
Fixpoint dispatchAll (authenticationContext : AuthenticationContextValue)
    (es : list Event) : Action unit :=
  match es with
  | [] => ret tt
  | e :: rest =>
      dispatch authenticationContext e ;;
      dispatchAll authenticationContext rest
  end.

(** The world after the events, and the calls they added to the log. *)
Definition afterEvents (authenticationContext : AuthenticationContextValue)
    (es : list Event) (w : World) : World :=
  snd (dispatchAll authenticationContext es w).

Definition eventCalls (authenticationContext : AuthenticationContextValue)
    (es : list Event) (w : World) : list Call :=
  skipn (length (calls w)) (calls (afterEvents authenticationContext es w)).

Definition is_buttonPress (e : Event) : bool :=
  match e with
  | ButtonPressed _ => true
  | _ => false
  end.

(** The coordinate of the last map event among [es], [c] when there is
    none; the text of the last change, [t] when there is none. *)
Fixpoint lastPressed (es : list Event) (c : LatLng) : LatLng :=
  match es with
  | [] => c
  | MapPressed event :: rest => lastPressed rest (nativeEvent_coordinate event)
  | _ :: rest => lastPressed rest c
  end.

Fixpoint lastTyped (es : list Event) (t : string) : string :=
  match es with
  | [] => t
  | TextChanged text :: rest => lastTyped rest text
  | _ :: rest => lastTyped rest t
  end.

Definition is_lookup (c : Call) : bool :=
  match c with
  | GetGitHubUserInfo _ => true
  | _ => false
  end.

Definition is_registration (c : Call) : bool :=
  match c with
  | PostUser _ => true
  | _ => false
  end.

Definition locks_map (c : Call) : bool :=
  match c with
  | SetMapLocked true => true
  | _ => false
  end.

Definition writes_region (c : Call) : bool :=
  match c with
  | SetCurrentRegion _ => true
  | _ => false
  end.

(** More sample surroundings. *)
Module Sample2.

(** The lookup succeeds, the registration is answered with status 404. *)
Definition registrationNotFound : Services :=
  {| tryGetCurrentPosition := Rejected (OtherError "permission denied");
     getGitHubUserInfo := fun _ => Fulfilled Sample.octocat;
     postUser := fun _ => Rejected (AxiosError (Some 404%Z)) |}.

(** The registration promise is rejected with the empty string. *)
Definition rejectsWithEmptyString : Services :=
  {| tryGetCurrentPosition := Rejected (OtherError "permission denied");
     getGitHubUserInfo := fun _ => Fulfilled Sample.octocat;
     postUser := fun _ => Rejected (StringError "") |}.

(** The world of the first render. *)
Definition firstRender : World :=
  Sample.world (initialState Sample.calgary).

End Sample2.

(** ** A run and what happens meanwhile *)

(** The chain of [handleSignUp] together with what else happens on the
    screen while its two remote calls are pending: [duringLookup] runs
    between the call of [getGitHubUserInfo] and the settling of its promise,
    [duringRegistration] between the call of [postUser] and the settling of
    its promise.  The handlers of the chain are those of [signUpChain]; they
    run on the [username] and the [markerLocation] the handler closed over,
    whatever the hooks have become meanwhile. *)
Definition signUpChainMeanwhile (services : Services)
    (authenticationContext : AuthenticationContextValue)
    (duringLookup duringRegistration : Action unit)
    (username : string) (markerLocation : LatLng) : Promise unit :=
  (call (GetGitHubUserInfo username) ;;
   duringLookup ;;
   ret (getGitHubUserInfo services username))
    |> catch_ (fun err =>
         if axios_isAxiosError err && response_status_is_404 err
         then reject (StringError notFoundMessage)
         else reject err)
    |> then_ (fun fromGitHub =>
         let payload := newUser fromGitHub markerLocation in
         call (PostUser payload) ;;
         duringRegistration ;;
         ret (postUser services payload))
    |> then_ (fun _ =>
         authenticationContext_setValue authenticationContext username ;;
         call (SetMapLocked false) ;;
         call (NavigationReplace "Main") ;;
         resolve tt)
    |> catch_ (fun err =>
         match typeof_is_string err with
         | Some message => call (SetErrorMessage (Some message))
         | None => call (SetErrorMessage (Some fallbackMessage))
         end ;;
         resolve tt)
    |> finally_ (call (SetIsAuthenticating false)).

Definition handleSignUpMeanwhile (services : Services)
    (authenticationContext : AuthenticationContextValue)
    (duringLookup duringRegistration : Action unit)
  : Action (Settled unit * Settled unit) :=
  render <- rendered ;;
  call (SetIsAuthenticating true) ;;
  chain <- signUpChainMeanwhile services authenticationContext
             duringLookup duringRegistration
             (username render) (markerLocation render) ;;
  ret (Fulfilled tt, chain).

(** The world such a run ends in, and the calls made from its start to its
    end, those of the meanwhile included. *)
Definition afterSignUpMeanwhile (services : Services)
    (authenticationContext : AuthenticationContextValue)
    (duringLookup duringRegistration : Action unit) (w : World) : World :=
  snd (handleSignUpMeanwhile services authenticationContext
         duringLookup duringRegistration w).

Definition signUpMeanwhileCalls (services : Services)
    (authenticationContext : AuthenticationContextValue)
    (duringLookup duringRegistration : Action unit) (w : World) : list Call :=
  skipn (length (calls w))
        (calls (afterSignUpMeanwhile services authenticationContext
                  duringLookup duringRegistration w)).

(** The worlds after each call of a sequence, the last one included. *)
Fixpoint worlds (cs : list Call) (w : World) : list World :=
  match cs with
  | [] => []
  | c :: rest => perform c w :: worlds rest (perform c w)
  end.

(** A call that leaves [isAuthenticating] alone. *)
Definition keeps_busy (c : Call) : bool :=
  match c with
  | SetIsAuthenticating _ => false
  | _ => true
  end.

(** Two presses of the button on the same screen: the second comes while
    the lookup of the first is pending and fails at once, the network being
    down for it; only then is the first lookup answered. *)
Module Overlap.

(** The network is down: the lookup gets no response. *)
Definition offline : Services :=
  {| tryGetCurrentPosition := Rejected (OtherError "permission denied");
     getGitHubUserInfo := fun _ => Rejected (AxiosError None);
     postUser := fun _ => Rejected (AxiosError None) |}.

Definition secondPress : Action unit :=
  dispatchAll ContextObject [ButtonPressed offline].

Definition after : World :=
  afterSignUpMeanwhile Sample.online ContextObject secondPress (ret tt)
    (Sample.world Sample.typed).

Definition log : list Call :=
  signUpMeanwhileCalls Sample.online ContextObject secondPress (ret tt)
    (Sample.world Sample.typed).

End Overlap.

(** * Properties *)

(** ** The log *)

Lemma calls_perform (c : Call) (w : World) :
  calls (perform c w) = calls w ++ [c].
Proof. reflexivity. Qed.

Lemma calls_replay (cs : list Call) :
  forall w, calls (replay cs w) = calls w ++ cs.
Proof.
  induction cs as [|c cs IH]; intro w; simpl.
  - now rewrite app_nil_r.
  - unfold replay in IH. rewrite IH, calls_perform, <- app_assoc. reflexivity.
Qed.

Lemma skipn_length_app {A} (l r : list A) :
  skipn (length l) (l ++ r) = r.
Proof. induction l as [|a l IH]; simpl; auto. Qed.

(** A run that amounts to replaying [cs] made exactly the calls [cs]. *)
Lemma signUpCalls_of_replay services authenticationContext w r cs :
  handleSignUp services authenticationContext w = (r, replay cs w) ->
  signUpCalls services authenticationContext w = cs.
Proof.
  intro H. unfold signUpCalls, afterSignUp. rewrite H. simpl.
  rewrite calls_replay. apply skipn_length_app.
Qed.

(** ** The paths of [handleSignUp] *)

Section Paths.

Variable services : Services.
Variable authenticationContext : AuthenticationContextValue.
Variable w : World.

Let user := username (hooks w).
Let marker := markerLocation (hooks w).

Lemma path_success fromGitHub :
  getGitHubUserInfo services user = Fulfilled fromGitHub ->
  postUser services (newUser fromGitHub marker) = Fulfilled tt ->
  handleSignUp services authenticationContext w =
    ((Fulfilled tt, Fulfilled tt),
     replay ([SetIsAuthenticating true;
              GetGitHubUserInfo user;
              PostUser (newUser fromGitHub marker)]
             ++ commitCalls authenticationContext user
             ++ [SetMapLocked false;
                 NavigationReplace "Main";
                 SetIsAuthenticating false]) w).
Proof.
  intros Hlookup Hpost.
  unfold handleSignUp, signUpChain, finally_, catch_, then_, bind, rendered,
    call, ret, resolve, reject, commitCalls; simpl.
  fold user marker. rewrite Hlookup; simpl. rewrite Hpost; simpl.
  destruct authenticationContext; reflexivity.
Qed.

Lemma path_not_found err :
  getGitHubUserInfo services user = Rejected err ->
  axios_isAxiosError err && response_status_is_404 err = true ->
  handleSignUp services authenticationContext w =
    ((Fulfilled tt, Fulfilled tt),
     replay [SetIsAuthenticating true;
             GetGitHubUserInfo user;
             SetErrorMessage (Some notFoundMessage);
             SetIsAuthenticating false] w).
Proof.
  intros Hlookup H404.
  unfold handleSignUp, signUpChain, finally_, catch_, then_, bind, rendered,
    call, ret, resolve, reject; simpl.
  fold user. rewrite Hlookup; simpl. rewrite H404; reflexivity.
Qed.

Lemma path_lookup_rejected err :
  getGitHubUserInfo services user = Rejected err ->
  axios_isAxiosError err && response_status_is_404 err = false ->
  handleSignUp services authenticationContext w =
    ((Fulfilled tt, Fulfilled tt),
     replay [SetIsAuthenticating true;
             GetGitHubUserInfo user;
             SetErrorMessage (Some (shownMessage err));
             SetIsAuthenticating false] w).
Proof.
  intros Hlookup H404.
  unfold handleSignUp, signUpChain, finally_, catch_, then_, bind, rendered,
    call, ret, resolve, reject, shownMessage; simpl.
  fold user. rewrite Hlookup; simpl. rewrite H404; simpl.
  destruct (typeof_is_string err); reflexivity.
Qed.

Lemma path_registration_rejected fromGitHub err :
  getGitHubUserInfo services user = Fulfilled fromGitHub ->
  postUser services (newUser fromGitHub marker) = Rejected err ->
  handleSignUp services authenticationContext w =
    ((Fulfilled tt, Fulfilled tt),
     replay [SetIsAuthenticating true;
             GetGitHubUserInfo user;
             PostUser (newUser fromGitHub marker);
             SetErrorMessage (Some (shownMessage err));
             SetIsAuthenticating false] w).
Proof.
  intros Hlookup Hpost.
  unfold handleSignUp, signUpChain, finally_, catch_, then_, bind, rendered,
    call, ret, resolve, reject, shownMessage; simpl.
  fold user marker. rewrite Hlookup; simpl. rewrite Hpost; simpl.
  destruct (typeof_is_string err); reflexivity.
Qed.

End Paths.

Lemma afterSignUp_of_replay services authenticationContext w r cs :
  handleSignUp services authenticationContext w = (r, replay cs w) ->
  afterSignUp services authenticationContext w = replay cs w.
Proof. intro H. unfold afterSignUp. now rewrite H. Qed.

(** Splits a run of [handleSignUp] into its four paths; each goal gets the
    equation [Hrun] of its path. *)
Ltac signUp_paths services ctx w :=
  let p := fresh "fromGitHub" in
  let e := fresh "err" in
  let Hl := fresh "Hlookup" in
  let Hp := fresh "Hpost" in
  let H404 := fresh "H404" in
  destruct (getGitHubUserInfo services (username (hooks w))) as [p|e] eqn:Hl;
  [ destruct (postUser services (newUser p (markerLocation (hooks w))))
      as [[]|e] eqn:Hp;
    [ pose proof (path_success services ctx w p Hl Hp) as Hrun
    | pose proof (path_registration_rejected services ctx w p e Hl Hp) as Hrun ]
  | destruct (axios_isAxiosError e && response_status_is_404 e) eqn:H404;
    [ pose proof (path_not_found services ctx w e Hl H404) as Hrun
    | pose proof (path_lookup_rejected services ctx w e Hl H404) as Hrun ] ].

(** Replaces the run by the replay of its calls, everywhere in the goal. *)
Ltac along Hrun :=
  rewrite ?(signUpCalls_of_replay _ _ _ _ _ Hrun);
  rewrite ?(afterSignUp_of_replay _ _ _ _ _ Hrun).

(** ** The first render *)

(** A position that cannot be had changes nothing, and the promise of the
    effect is fulfilled all the same. *)
Lemma onMount_keeps_default services w err :
  tryGetCurrentPosition services = Rejected err ->
  onMount services w = (Fulfilled tt, w).
Proof.
  intro H. unfold onMount, catch_, then_, bind, rendered, ret, reject, resolve.
  simpl. rewrite H. reflexivity.
Qed.

(** A position that is had moves the marker and the centre of the region,
    and keeps the spans. *)
Lemma onMount_moves_marker services w curPos :
  tryGetCurrentPosition services = Fulfilled curPos ->
  onMount services w =
    (Fulfilled tt,
     replay [SetMarkerLocation curPos;
             SetCurrentRegion (spread_region (currentRegion (hooks w)) curPos)]
            w).
Proof.
  intro H. unfold onMount, catch_, then_, bind, rendered, ret, reject, resolve.
  simpl. rewrite H. reflexivity.
Qed.

(** ** The registration pipeline *)

(** The success path for either value of the context.  When the lookup and
    the registration both succeed, [handleSignUp] does not write
    [errorMessage], sets [mapLocked] to false and replaces the route on top
    of the stack by "Main", exactly once.  The commit is the guarded call
    [authenticationContext?.setValue(username)]: with a context object the
    session identity becomes the submitted username, by exactly one call;
    with a null context no commit is made and the identity is left as it
    was. *)
Theorem signUp_success :
  forall services authenticationContext w fromGitHub,
    getGitHubUserInfo services (username (hooks w)) = Fulfilled fromGitHub ->
    postUser services (newUser fromGitHub (markerLocation (hooks w)))
      = Fulfilled tt ->
    errorMessage (hooks (afterSignUp services authenticationContext w))
      = errorMessage (hooks w) /\
    filter writes_errorMessage (signUpCalls services authenticationContext w)
      = [] /\
    mapLocked (hooks (afterSignUp services authenticationContext w)) = false /\
    sessionIdentity (afterSignUp services authenticationContext w)
      = match authenticationContext with
        | ContextObject => Some (username (hooks w))
        | ContextNull => sessionIdentity w
        end /\
    filter commits_identity (signUpCalls services authenticationContext w)
      = match authenticationContext with
        | ContextObject => [AuthSetValue (username (hooks w))]
        | ContextNull => []
        end /\
    filter navigates (signUpCalls services authenticationContext w)
      = [NavigationReplace "Main"] /\
    routes (afterSignUp services authenticationContext w)
      = replace_top "Main" (routes w).
Proof.
  intros services ctx w p Hlookup Hpost.
  pose proof (path_success services ctx w p Hlookup Hpost) as Hrun.
  along Hrun. destruct ctx; repeat split; reflexivity.
Qed.

(** C1.  On a screen that has its authentication context (the Session
    Store), when the lookup and the registration both succeed,
    [handleSignUp] does not write [errorMessage] (it is left as it was, so
    an unset message remains unset), sets [mapLocked] to false, commits the
    submitted username as the session identity, by exactly one call, and
    replaces the route on top of the stack by "Main", exactly once. *)
Theorem signUp_success_commits :
  forall services w fromGitHub,
    getGitHubUserInfo services (username (hooks w)) = Fulfilled fromGitHub ->
    postUser services (newUser fromGitHub (markerLocation (hooks w)))
      = Fulfilled tt ->
    errorMessage (hooks (afterSignUp services ContextObject w))
      = errorMessage (hooks w) /\
    (errorMessage (hooks w) = None ->
     errorMessage (hooks (afterSignUp services ContextObject w)) = None) /\
    filter writes_errorMessage (signUpCalls services ContextObject w) = [] /\
    mapLocked (hooks (afterSignUp services ContextObject w)) = false /\
    sessionIdentity (afterSignUp services ContextObject w)
      = Some (username (hooks w)) /\
    filter commits_identity (signUpCalls services ContextObject w)
      = [AuthSetValue (username (hooks w))] /\
    filter navigates (signUpCalls services ContextObject w)
      = [NavigationReplace "Main"] /\
    routes (afterSignUp services ContextObject w)
      = replace_top "Main" (routes w).
Proof.
  intros services w p Hlookup Hpost.
  pose proof (path_success services ContextObject w p Hlookup Hpost) as Hrun.
  along Hrun.
  repeat match goal with |- _ /\ _ => split end;
    try reflexivity.
  intro Hunset. exact Hunset.
Qed.

Lemma signUp_success_commits_witness :
  errorMessage (hooks (afterSignUp Sample.online ContextObject
                         (Sample.world Sample.typed))) = None /\
  mapLocked (hooks (afterSignUp Sample.online ContextObject
                      (Sample.world Sample.typed))) = false /\
  sessionIdentity (afterSignUp Sample.online ContextObject
                     (Sample.world Sample.typed)) = Some "octocat" /\
  filter navigates (signUpCalls Sample.online ContextObject
                      (Sample.world Sample.typed))
    = [NavigationReplace "Main"] /\
  routes (afterSignUp Sample.online ContextObject
            (Sample.world Sample.typed)) = ["Main"].
Proof.
  destruct (signUp_success_commits Sample.online
              (Sample.world Sample.typed) Sample.octocat
              eq_refl eq_refl)
    as (Herr & _ & _ & Hlock & Hid & _ & Hnav & Hroutes).
  split; [exact Herr|]. split; [exact Hlock|]. split; [exact Hid|].
  split; [exact Hnav | exact Hroutes].
Defined.

(** Without an authentication context the guarded call is skipped: the
    lookup and the registration succeed and the screen navigates, yet no
    identity is committed. *)
Lemma signUp_success_without_context :
  getGitHubUserInfo Sample.online (username Sample.typed)
    = Fulfilled Sample.octocat /\
  postUser Sample.online (newUser Sample.octocat (markerLocation Sample.typed))
    = Fulfilled tt /\
  filter navigates
    (signUpCalls Sample.online ContextNull (Sample.world Sample.typed))
    = [NavigationReplace "Main"] /\
  filter commits_identity
    (signUpCalls Sample.online ContextNull (Sample.world Sample.typed))
    = [] /\
  sessionIdentity (afterSignUp Sample.online ContextNull
                     (Sample.world Sample.typed))
    <> Some (username Sample.typed).
Proof. repeat split; try reflexivity. vm_compute. discriminate. Qed.

(** C2.  When the lookup reports not-found (an axios error with status 404),
    the run ends with [errorMessage] equal to the fixed not-found message and
    [isAuthenticating] false; it makes no navigation call and the route
    stack is as before. *)
Theorem signUp_not_found :
  forall services authenticationContext w,
    NotFound services (hooks w) ->
    errorMessage (hooks (afterSignUp services authenticationContext w))
      = Some "There is no such username on GitHub. Please try again." /\
    isAuthenticating (hooks (afterSignUp services authenticationContext w))
      = false /\
    filter navigates (signUpCalls services authenticationContext w) = [] /\
    routes (afterSignUp services authenticationContext w) = routes w.
Proof.
  intros services ctx w (err & Hlookup & Haxios & H404).
  assert (Hboth : axios_isAxiosError err && response_status_is_404 err = true)
    by (rewrite Haxios, H404; reflexivity).
  pose proof (path_not_found services ctx w err Hlookup Hboth) as Hrun.
  along Hrun. repeat split; reflexivity.
Qed.

Lemma signUp_not_found_witness :
  errorMessage (hooks (afterSignUp Sample.unknownUser ContextObject
                         (Sample.world Sample.typed)))
    = Some "There is no such username on GitHub. Please try again.".
Proof.
  apply (signUp_not_found Sample.unknownUser ContextObject
           (Sample.world Sample.typed)).
  exists (AxiosError (Some 404%Z)). repeat split; reflexivity.
Defined.

(** C3, as the code has it.  After a failure of the lookup or of the
    registration other than not-found, the last [catch] shows the rejection
    value itself when it is a string and the generic fallback for every
    other value.  Either way the run ends with [isAuthenticating] false,
    makes no navigation call and no commit, and leaves the route stack and
    the session identity as they were. *)
Theorem signUp_other_failure :
  forall services authenticationContext w err,
    OtherFailure services (hooks w) err ->
    errorMessage (hooks (afterSignUp services authenticationContext w))
      = Some match typeof_is_string err with
             | Some message => message
             | None => "Something went wrong. Please try again."
             end /\
    isAuthenticating (hooks (afterSignUp services authenticationContext w))
      = false /\
    filter navigates (signUpCalls services authenticationContext w) = [] /\
    routes (afterSignUp services authenticationContext w) = routes w /\
    filter commits_identity (signUpCalls services authenticationContext w)
      = [] /\
    sessionIdentity (afterSignUp services authenticationContext w)
      = sessionIdentity w.
Proof.
  intros services ctx w err Hfail.
  destruct Hfail as [err Hlookup H404 | fromGitHub err Hlookup Hpost].
  - pose proof (path_lookup_rejected services ctx w err Hlookup H404) as Hrun.
    along Hrun. repeat split; reflexivity.
  - pose proof (path_registration_rejected services ctx w fromGitHub err
                  Hlookup Hpost) as Hrun.
    along Hrun. repeat split; reflexivity.
Qed.

Lemma signUp_other_failure_witness :
  errorMessage (hooks (afterSignUp Sample.serverDown ContextObject
                         (Sample.world Sample.typed)))
    = Some "Something went wrong. Please try again." /\
  sessionIdentity (afterSignUp Sample.serverDown ContextObject
                     (Sample.world Sample.typed)) = None.
Proof.
  destruct (signUp_other_failure Sample.serverDown ContextObject
              (Sample.world Sample.typed) (AxiosError (Some 500%Z))
              (RegistrationFails Sample.serverDown Sample.typed
                 Sample.octocat (AxiosError (Some 500%Z)) eq_refl eq_refl))
    as (Herr & _ & _ & _ & _ & Hid).
  split; [exact Herr | exact Hid].
Defined.

(** C3, as the spec words it, fails for a rejection value that is a string:
    the registration fails, it is not the not-found case, and the message
    shown is that string, not the generic fallback. *)
Lemma signUp_string_rejection_shown :
  OtherFailure Sample.rejectsWithString Sample.typed
    (StringError "quota exceeded") /\
  errorMessage (hooks (afterSignUp Sample.rejectsWithString ContextObject
                         (Sample.world Sample.typed)))
    = Some "quota exceeded" /\
  errorMessage (hooks (afterSignUp Sample.rejectsWithString ContextObject
                         (Sample.world Sample.typed)))
    <> Some "Something went wrong. Please try again.".
Proof.
  split; [| split].
  - apply (RegistrationFails _ _ Sample.octocat); reflexivity.
  - reflexivity.
  - vm_compute. discriminate.
Qed.

(** A run on its own, with nothing in between.  Every run of
    [handleSignUp] is the replay of its calls.  The first
    call sets [isAuthenticating] to true and is the only one to do so; the
    flag is true in every world the run passes through after it; the last
    call resets it to false and is the only one to do so, whichever way the
    two remote calls settle; the run ends with the flag false. *)
Theorem signUp_busy :
  forall services authenticationContext w,
    afterSignUp services authenticationContext w
      = replay (signUpCalls services authenticationContext w) w /\
    hd_error (signUpCalls services authenticationContext w)
      = Some (SetIsAuthenticating true) /\
    count_calls is_busy_set (signUpCalls services authenticationContext w)
      = 1 /\
    Forall (fun x => isAuthenticating (hooks x) = true)
           (intermediate (signUpCalls services authenticationContext w) w) /\
    last (signUpCalls services authenticationContext w)
         (SetIsAuthenticating true)
      = SetIsAuthenticating false /\
    count_calls is_busy_reset (signUpCalls services authenticationContext w)
      = 1 /\
    isAuthenticating (hooks (afterSignUp services authenticationContext w))
      = false.
Proof.
  intros services ctx w.
  signUp_paths services ctx w; along Hrun; try destruct ctx;
    repeat match goal with |- _ /\ _ => split end;
    try reflexivity;
    simpl; repeat constructor.
Qed.

(** C5.  No run of [handleSignUp] both writes [errorMessage] and makes a
    navigation call. *)
Theorem signUp_error_xor_navigation :
  forall services authenticationContext w,
    existsb writes_errorMessage (signUpCalls services authenticationContext w)
    && existsb navigates (signUpCalls services authenticationContext w)
    = false.
Proof.
  intros services ctx w.
  signUp_paths services ctx w; along Hrun; try destruct ctx; reflexivity.
Qed.

(** C6, as the code has it.  [handleSignUp] never clears [errorMessage]:
    its first call, [setIsAuthenticating(true)], leaves the message as it
    was, no call of the run clears it, and the run writes it exactly when
    one of the two remote calls rejects; after a run whose remote calls
    succeed the message is the one from before the run. *)
Theorem signUp_keeps_errorMessage :
  forall services authenticationContext w,
    hd_error (signUpCalls services authenticationContext w)
      = Some (SetIsAuthenticating true) /\
    errorMessage (hooks (perform (SetIsAuthenticating true) w))
      = errorMessage (hooks w) /\
    existsb clears_errorMessage (signUpCalls services authenticationContext w)
      = false /\
    existsb writes_errorMessage (signUpCalls services authenticationContext w)
      = signUpFails services (hooks w) /\
    (if signUpFails services (hooks w)
     then errorMessage (hooks (afterSignUp services authenticationContext w))
          <> None
     else errorMessage (hooks (afterSignUp services authenticationContext w))
          = errorMessage (hooks w)).
Proof.
  intros services ctx w. unfold signUpFails.
  signUp_paths services ctx w; along Hrun; try destruct ctx;
    repeat match goal with |- _ /\ _ => split end;
    try reflexivity; simpl; discriminate.
Qed.

(** C6, as the spec words it, fails: a message set before the run is still
    there after the first call, in every world the run passes through, and
    when the run has ended. *)
Lemma signUp_does_not_clear_errorMessage :
  errorMessage (hooks Sample.failedOnce)
    = Some "Something went wrong. Please try again." /\
  errorMessage (hooks (perform (SetIsAuthenticating true) Sample.failedOnce))
    = Some "Something went wrong. Please try again." /\
  Forall (fun x => errorMessage (hooks x)
                   = Some "Something went wrong. Please try again.")
         (intermediate
            (signUpCalls Sample.online ContextObject Sample.failedOnce)
            Sample.failedOnce) /\
  errorMessage
    (hooks (afterSignUp Sample.online ContextObject Sample.failedOnce))
    = Some "Something went wrong. Please try again." /\
  errorMessage
    (hooks (afterSignUp Sample.online ContextObject Sample.failedOnce))
    <> None.
Proof.
  split; [reflexivity|]. split; [reflexivity|]. split; [|split].
  - vm_compute. repeat constructor.
  - reflexivity.
  - vm_compute. discriminate.
Qed.

(** ** The handlers of the input field and of the map *)

(** C7.  From every state, [onChangeText text] makes exactly the two calls
    [setUsername(text)] and [setErrorMessage(null)]: afterwards [username]
    is [text] and [errorMessage] is unset, whatever it was; the other hooks,
    the session identity and the route stack are untouched, and no call of
    the registration pipeline is involved. *)
Theorem onChangeText_clears_error :
  forall text w,
    username (hooks (snd (onChangeText text w))) = text /\
    errorMessage (hooks (snd (onChangeText text w))) = None /\
    snd (onChangeText text w)
      = replay [SetUsername text; SetErrorMessage None] w /\
    isAuthenticating (hooks (snd (onChangeText text w)))
      = isAuthenticating (hooks w) /\
    markerLocation (hooks (snd (onChangeText text w)))
      = markerLocation (hooks w) /\
    currentRegion (hooks (snd (onChangeText text w)))
      = currentRegion (hooks w) /\
    mapLocked (hooks (snd (onChangeText text w))) = mapLocked (hooks w) /\
    sessionIdentity (snd (onChangeText text w)) = sessionIdentity w /\
    routes (snd (onChangeText text w)) = routes w.
Proof. intros text w. repeat split. Qed.

(** C8.  From every state and for every coordinate [c], whatever its two
    numbers are, [handleMapPress] on a map press at [c] and on a
    point-of-interest tap at [c] makes the one call [setMarkerLocation(c)]:
    afterwards [markerLocation] is [c]. *)
Theorem handleMapPress_sets_marker :
  forall c w,
    markerLocation (hooks (snd (handleMapPress (MapPressEvent c) w))) = c /\
    snd (handleMapPress (MapPressEvent c) w)
      = replay [SetMarkerLocation c] w /\
    (forall placeId poi_name,
        markerLocation
          (hooks (snd (handleMapPress (PoiClickEvent c placeId poi_name) w)))
          = c /\
        snd (handleMapPress (PoiClickEvent c placeId poi_name) w)
          = replay [SetMarkerLocation c] w).
Proof. intros c w. repeat split. Qed.

(** ** Across runs *)

(** The username and the marker are not written by [handleSignUp]. *)
Lemma signUp_keeps_input services authenticationContext w :
  username (hooks (afterSignUp services authenticationContext w))
    = username (hooks w) /\
  markerLocation (hooks (afterSignUp services authenticationContext w))
    = markerLocation (hooks w).
Proof.
  signUp_paths services authenticationContext w; along Hrun;
    try destruct authenticationContext; split; reflexivity.
Qed.

(** What a run leaves in [errorMessage]: some message when one of the remote
    calls rejects, and what was there otherwise. *)
Lemma signUp_errorMessage services authenticationContext w :
  if signUpFails services (hooks w)
  then exists message,
         errorMessage (hooks (afterSignUp services authenticationContext w))
           = Some message
  else errorMessage (hooks (afterSignUp services authenticationContext w))
       = errorMessage (hooks w).
Proof.
  unfold signUpFails.
  signUp_paths services authenticationContext w; along Hrun;
    try destruct authenticationContext;
    try reflexivity; eexists; reflexivity.
Qed.

(** C9.  Whichever way the two remote calls settle, the promise
    [handleSignUp] returns is fulfilled and so is the chain it started: the
    last [catch] turns every rejection into a fulfilment.  When one of the
    remote calls rejects, the run ends with a message in [errorMessage];
    otherwise the message is left as it was. *)
Theorem signUp_never_rejects :
  forall services authenticationContext w,
    fst (handleSignUp services authenticationContext w)
      = (Fulfilled tt, Fulfilled tt) /\
    (if signUpFails services (hooks w)
     then exists message,
            errorMessage (hooks (afterSignUp services authenticationContext w))
              = Some message
     else errorMessage (hooks (afterSignUp services authenticationContext w))
          = errorMessage (hooks w)).
Proof.
  intros services ctx w. split.
  - signUp_paths services ctx w; rewrite Hrun; reflexivity.
  - apply signUp_errorMessage.
Qed.

(** C10.  A run whose remote calls succeed does not write [errorMessage].
    So when a run fails and the next run, started without an edit of the
    username in between, succeeds, that next run makes its navigation call
    while the message of the failed run is still set. *)
Theorem resubmit_keeps_errorMessage :
  forall failing working authenticationContext w,
    signUpFails failing (hooks w) = true ->
    signUpFails working (hooks w) = false ->
    exists message,
      errorMessage (hooks (afterSignUp failing authenticationContext w))
        = Some message /\
      username (hooks (afterSignUp failing authenticationContext w))
        = username (hooks w) /\
      filter writes_errorMessage
        (signUpCalls working authenticationContext
           (afterSignUp failing authenticationContext w)) = [] /\
      filter navigates
        (signUpCalls working authenticationContext
           (afterSignUp failing authenticationContext w))
        = [NavigationReplace "Main"] /\
      errorMessage
        (hooks (afterSignUp working authenticationContext
                  (afterSignUp failing authenticationContext w)))
        = Some message.
Proof.
  intros failing working ctx w Hfails Hworks.
  pose proof (signUp_errorMessage failing ctx w) as Hmsg.
  rewrite Hfails in Hmsg. destruct Hmsg as [message Hmsg].
  destruct (signUp_keeps_input failing ctx w) as [Huser Hmarker].
  exists message. split; [exact Hmsg|]. split; [exact Huser|].
  unfold signUpFails in Hworks.
  rewrite <- Huser, <- Hmarker in Hworks.
  remember (afterSignUp failing ctx w) as w1 eqn:Hw1.
  destruct (getGitHubUserInfo working (username (hooks w1)))
    as [fromGitHub|] eqn:Hlookup; [|discriminate].
  destruct (postUser working (newUser fromGitHub (markerLocation (hooks w1))))
    as [[]|] eqn:Hpost; [|discriminate].
  pose proof (path_success working ctx w1 fromGitHub Hlookup Hpost) as Hrun.
  along Hrun. rewrite <- Hmsg.
  destruct ctx; repeat split; reflexivity.
Qed.

Lemma resubmit_keeps_errorMessage_witness :
  exists message,
    errorMessage
      (hooks (afterSignUp Sample.serverDown ContextObject
                (Sample.world Sample.typed))) = Some message /\
    username
      (hooks (afterSignUp Sample.serverDown ContextObject
                (Sample.world Sample.typed))) = "octocat" /\
    filter writes_errorMessage
      (signUpCalls Sample.online ContextObject Sample.failedOnce) = [] /\
    filter navigates
      (signUpCalls Sample.online ContextObject Sample.failedOnce)
      = [NavigationReplace "Main"] /\
    errorMessage
      (hooks (afterSignUp Sample.online ContextObject Sample.failedOnce))
      = Some message.
Proof.
  exact (resubmit_keeps_errorMessage Sample.serverDown Sample.online
           ContextObject (Sample.world Sample.typed) eq_refl eq_refl).
Defined.

(** ** What a run sends *)

(** X1.  When the lookup is fulfilled, the run makes exactly one
    registration call, whether that call then succeeds or not.  Its
    argument takes login, avatar_url, bio, company and name from the
    profile GitHub returned and the coordinates from the marker; the typed
    username is not part of it. *)
Theorem signUp_registration_payload :
  forall services authenticationContext w fromGitHub,
    getGitHubUserInfo services (username (hooks w)) = Fulfilled fromGitHub ->
    filter is_registration (signUpCalls services authenticationContext w)
      = [PostUser
           {| NewUser.login := GitHubUser.login fromGitHub;
              NewUser.avatar_url := GitHubUser.avatar_url fromGitHub;
              NewUser.bio := GitHubUser.bio fromGitHub;
              NewUser.company := GitHubUser.company fromGitHub;
              NewUser.name := GitHubUser.name fromGitHub;
              NewUser.coordinates := markerLocation (hooks w) |}].
Proof.
  intros services ctx w p Hlookup.
  destruct (postUser services (newUser p (markerLocation (hooks w))))
    as [[]|err] eqn:Hpost.
  - pose proof (path_success services ctx w p Hlookup Hpost) as Hrun.
    along Hrun. destruct ctx; reflexivity.
  - pose proof (path_registration_rejected services ctx w p err Hlookup Hpost)
      as Hrun.
    along Hrun. reflexivity.
Qed.

Lemma signUp_registration_payload_witness :
  filter is_registration
    (signUpCalls Sample.serverDown ContextObject (Sample.world Sample.typed))
  = [PostUser
       {| NewUser.login := "octocat";
          NewUser.avatar_url := "https://github.com/images/octocat.png";
          NewUser.bio := None;
          NewUser.company := Some "@github";
          NewUser.name := Some "The Octocat";
          NewUser.coordinates := Sample.calgary |}].
Proof.
  exact (signUp_registration_payload Sample.serverDown ContextObject
           (Sample.world Sample.typed) Sample.octocat eq_refl).
Defined.

(** X2.  Every run makes the lookup exactly once, with the username as it
    stands in the hooks, the empty string included: nothing is checked
    before the call.  When the lookup is rejected, whatever the reason, the
    run makes no registration call, no commit and no navigation call. *)
Theorem signUp_remote_calls :
  forall services authenticationContext w,
    filter is_lookup (signUpCalls services authenticationContext w)
      = [GetGitHubUserInfo (username (hooks w))] /\
    match getGitHubUserInfo services (username (hooks w)) with
    | Fulfilled _ =>
        length (filter is_registration
                  (signUpCalls services authenticationContext w)) = 1
    | Rejected _ =>
        filter is_registration (signUpCalls services authenticationContext w)
          = [] /\
        filter commits_identity (signUpCalls services authenticationContext w)
          = [] /\
        filter navigates (signUpCalls services authenticationContext w) = []
    end.
Proof.
  intros services ctx w.
  signUp_paths services ctx w; along Hrun; try destruct ctx;
    repeat match goal with |- _ /\ _ => split end; reflexivity.
Qed.

(** X3.  A run writes the not-found message in two cases only: the lookup
    was rejected with an axios error of status 404, or one of the two
    promises was rejected with that very string.  So a registration
    answered with status 404 is not reported as an unknown username. *)
Theorem signUp_not_found_message_iff :
  forall services authenticationContext w,
    In (SetErrorMessage (Some notFoundMessage))
       (signUpCalls services authenticationContext w)
    <-> NotFound services (hooks w)
        \/ OtherFailure services (hooks w) (StringError notFoundMessage).
Proof.
  intros services ctx w. split.
  - signUp_paths services ctx w; along Hrun; simpl; intro Hin.
    + destruct ctx; simpl in Hin;
        repeat (destruct Hin as [Hin|Hin]; try discriminate Hin);
        contradiction.
    + repeat (destruct Hin as [Hin|Hin]; try discriminate Hin);
        try contradiction.
      injection Hin as Hmsg. right.
      destruct err as [status|s|d]; unfold shownMessage in Hmsg;
        simpl in Hmsg; try discriminate Hmsg.
      subst s. exact (RegistrationFails _ _ fromGitHub _ Hlookup Hpost).
    + left. exists err. apply andb_prop in H404. tauto.
    + repeat (destruct Hin as [Hin|Hin]; try discriminate Hin);
        try contradiction.
      injection Hin as Hmsg. right.
      destruct err as [status|s|d]; unfold shownMessage in Hmsg;
        simpl in Hmsg; try discriminate Hmsg.
      subst s. exact (LookupFails _ _ _ Hlookup H404).
  - intros [(err & Hlookup & Haxios & Hstatus) | Hother].
    + assert (H404 : axios_isAxiosError err && response_status_is_404 err
                     = true) by (rewrite Haxios, Hstatus; reflexivity).
      pose proof (path_not_found services ctx w err Hlookup H404) as Hrun.
      along Hrun. simpl. tauto.
    + inversion Hother as [err Hlookup H404 | fromGitHub err Hlookup Hpost];
        subst.
      * pose proof (path_lookup_rejected services ctx w _ Hlookup H404)
          as Hrun.
        along Hrun. simpl. tauto.
      * pose proof (path_registration_rejected services ctx w _ _
                      Hlookup Hpost) as Hrun.
        along Hrun. simpl. tauto.
Qed.

(** X3, on a registration answered with status 404: the not-found message
    is not written. *)
Lemma registration_404_is_not_not_found :
  ~ In (SetErrorMessage (Some notFoundMessage))
       (signUpCalls Sample2.registrationNotFound ContextObject
          (Sample.world Sample.typed)).
Proof.
  intro Hin.
  apply (proj1 (signUp_not_found_message_iff Sample2.registrationNotFound
                  ContextObject (Sample.world Sample.typed))) in Hin.
  destruct Hin as [(err & Hlookup & _) | Hother].
  - discriminate Hlookup.
  - inversion Hother as [err Hlookup _ | fromGitHub err _ Hpost].
    + discriminate Hlookup.
    + discriminate Hpost.
Defined.

(** ** What the screen shows after a failure *)

(** X4.  After a failure other than not-found the error box shows the
    message of the last [catch], except when the rejection value is the
    empty string: the message written is then the empty string, which is
    falsy, so no error box is drawn although the run failed. *)
Theorem signUp_failure_errorBox :
  forall services authenticationContext w err,
    OtherFailure services (hooks w) err ->
    errorBox (render (hooks (afterSignUp services authenticationContext w)))
      = match typeof_is_string err with
        | Some EmptyString => None
        | Some message => Some message
        | None => Some "Something went wrong. Please try again."
        end /\
    spinner_visible
      (render (hooks (afterSignUp services authenticationContext w)))
      = false.
Proof.
  intros services ctx w err Hfail.
  destruct Hfail as [err Hlookup H404 | fromGitHub err Hlookup Hpost].
  - pose proof (path_lookup_rejected services ctx w err Hlookup H404) as Hrun.
    along Hrun. destruct err as [status|[|a s]|d]; split; reflexivity.
  - pose proof (path_registration_rejected services ctx w fromGitHub err
                  Hlookup Hpost) as Hrun.
    along Hrun. destruct err as [status|[|a s]|d]; split; reflexivity.
Qed.

Lemma signUp_failure_errorBox_witness :
  errorBox
    (render (hooks (afterSignUp Sample2.rejectsWithEmptyString ContextObject
                      (Sample.world Sample.typed)))) = None /\
  spinner_visible
    (render (hooks (afterSignUp Sample2.rejectsWithEmptyString ContextObject
                      (Sample.world Sample.typed)))) = false.
Proof.
  exact (signUp_failure_errorBox Sample2.rejectsWithEmptyString ContextObject
           (Sample.world Sample.typed) (StringError "")
           (RegistrationFails Sample2.rejectsWithEmptyString Sample.typed
              Sample.octocat (StringError "") eq_refl eq_refl)).
Defined.

(** X5.  A run in which a remote call rejects changes two hooks only: it
    ends with a message in [errorMessage] and with [isAuthenticating]
    false.  The username, the marker, the region and the map lock are as
    before, and so are the session identity and the route stack: the screen
    can be submitted again as it stands. *)
Theorem signUp_failure_frame :
  forall services authenticationContext w,
    signUpFails services (hooks w) = true ->
    exists message,
      hooks (afterSignUp services authenticationContext w)
        = {| username := username (hooks w);
             isAuthenticating := false;
             markerLocation := markerLocation (hooks w);
             currentRegion := currentRegion (hooks w);
             mapLocked := mapLocked (hooks w);
             errorMessage := Some message |} /\
      sessionIdentity (afterSignUp services authenticationContext w)
        = sessionIdentity w /\
      routes (afterSignUp services authenticationContext w) = routes w.
Proof.
  intros services ctx w. unfold signUpFails.
  signUp_paths services ctx w; along Hrun; intro Hfails;
    try discriminate Hfails;
    eexists; repeat split; reflexivity.
Qed.

Lemma signUp_failure_frame_witness :
  exists message,
    hooks (afterSignUp Sample.unknownUser ContextObject
             (Sample.world Sample.typed))
      = {| username := "octocat";
           isAuthenticating := false;
           markerLocation := Sample.calgary;
           currentRegion := region_of Sample.calgary;
           mapLocked := true;
           errorMessage := Some message |} /\
    sessionIdentity (afterSignUp Sample.unknownUser ContextObject
                       (Sample.world Sample.typed)) = None /\
    routes (afterSignUp Sample.unknownUser ContextObject
              (Sample.world Sample.typed)) = ["Setup"].
Proof.
  exact (signUp_failure_frame Sample.unknownUser ContextObject
           (Sample.world Sample.typed) eq_refl).
Defined.

(** ** The first render and its effect *)

(** X6.  From the state of the first render, whichever way
    [tryGetCurrentPosition] settles, the promise of the effect is fulfilled
    (a rejection is swallowed), the marker sits at the centre of the region,
    both spans are 0.004, and the other hooks are those of the first
    render: no message, not authenticating, the map locked.  The marker is
    the position when there is one and [DEFAULT_LOCATION] otherwise. *)
#[warnings="-inexact-float"]
Theorem onMount_centres_marker :
  forall DEFAULT_LOCATION services w,
    hooks w = initialState DEFAULT_LOCATION ->
    fst (onMount services w) = Fulfilled tt /\
    markerLocation (hooks (snd (onMount services w)))
      = match tryGetCurrentPosition services with
        | Fulfilled curPos => curPos
        | Rejected _ => DEFAULT_LOCATION
        end /\
    region_latitude (currentRegion (hooks (snd (onMount services w))))
      = latitude (markerLocation (hooks (snd (onMount services w)))) /\
    region_longitude (currentRegion (hooks (snd (onMount services w))))
      = longitude (markerLocation (hooks (snd (onMount services w)))) /\
    latitudeDelta (currentRegion (hooks (snd (onMount services w))))
      = 0.004%float /\
    longitudeDelta (currentRegion (hooks (snd (onMount services w))))
      = 0.004%float /\
    username (hooks (snd (onMount services w))) = "" /\
    errorMessage (hooks (snd (onMount services w))) = None /\
    isAuthenticating (hooks (snd (onMount services w))) = false /\
    mapLocked (hooks (snd (onMount services w))) = true.
Proof.
  intros D services w Hfirst.
  destruct (tryGetCurrentPosition services) as [curPos|err] eqn:Hpos.
  - rewrite (onMount_moves_marker services w curPos Hpos). simpl.
    rewrite Hfirst. repeat split; reflexivity.
  - rewrite (onMount_keeps_default services w err Hpos). simpl.
    rewrite Hfirst. repeat split; reflexivity.
Qed.

Lemma onMount_centres_marker_witness :
  fst (onMount Sample2.registrationNotFound Sample2.firstRender)
    = Fulfilled tt /\
  markerLocation
    (hooks (snd (onMount Sample2.registrationNotFound Sample2.firstRender)))
    = Sample.calgary.
Proof.
  destruct (onMount_centres_marker Sample.calgary
              Sample2.registrationNotFound Sample2.firstRender eq_refl)
    as (Hfulfilled & Hmarker & _).
  split; [exact Hfulfilled | exact Hmarker].
Defined.

(** ** Any sequence of events *)

Lemma replay_app (cs1 cs2 : list Call) (w : World) :
  replay (cs1 ++ cs2) w = replay cs2 (replay cs1 w).
Proof. unfold replay. apply fold_left_app. Qed.

Section Events.

Variable authenticationContext : AuthenticationContextValue.

Lemma afterEvents_cons e es w :
  afterEvents authenticationContext (e :: es) w
    = afterEvents authenticationContext es
        (afterEvents authenticationContext [e] w).
Proof.
  unfold afterEvents. simpl. unfold bind, ret.
  destruct (dispatch authenticationContext e w). reflexivity.
Qed.

Lemma afterEvents_button services w :
  afterEvents authenticationContext [ButtonPressed services] w
    = afterSignUp services authenticationContext w.
Proof.
  unfold afterEvents, afterSignUp. simpl. unfold bind, ret.
  destruct (handleSignUp services authenticationContext w). reflexivity.
Qed.

Lemma eventCalls_button services w :
  eventCalls authenticationContext [ButtonPressed services] w
    = signUpCalls services authenticationContext w.
Proof.
  unfold eventCalls, signUpCalls. now rewrite afterEvents_button.
Qed.

Lemma afterSignUp_replay services w :
  afterSignUp services authenticationContext w
    = replay (signUpCalls services authenticationContext w) w.
Proof.
  signUp_paths services authenticationContext w; along Hrun; reflexivity.
Qed.

(** Each handler is the replay of the calls it makes. *)
Lemma afterEvents_one_replay e w :
  afterEvents authenticationContext [e] w
    = replay (eventCalls authenticationContext [e] w) w.
Proof.
  destruct e as [event|text|services].
  - unfold eventCalls, afterEvents. simpl.
    rewrite skipn_length_app. reflexivity.
  - unfold eventCalls, afterEvents. simpl.
    rewrite <- app_assoc, skipn_length_app. reflexivity.
  - rewrite eventCalls_button, afterEvents_button. apply afterSignUp_replay.
Qed.

Lemma eventCalls_of_replay es w cs :
  afterEvents authenticationContext es w = replay cs w ->
  eventCalls authenticationContext es w = cs.
Proof.
  intro H. unfold eventCalls. rewrite H, calls_replay.
  apply skipn_length_app.
Qed.

Lemma afterEvents_replay es :
  forall w,
    afterEvents authenticationContext es w
      = replay (eventCalls authenticationContext es w) w.
Proof.
  induction es as [|e es IH]; intro w.
  - unfold eventCalls, afterEvents. simpl.
    rewrite <- (app_nil_r (calls w)) at 2. rewrite skipn_length_app.
    reflexivity.
  - assert (H : afterEvents authenticationContext (e :: es) w
                = replay (eventCalls authenticationContext [e] w
                          ++ eventCalls authenticationContext es
                               (afterEvents authenticationContext [e] w)) w).
    { rewrite afterEvents_cons, IH, replay_app.
      rewrite <- afterEvents_one_replay. reflexivity. }
    rewrite (eventCalls_of_replay _ _ _ H). exact H.
Qed.

Lemma eventCalls_cons e es w :
  eventCalls authenticationContext (e :: es) w
    = eventCalls authenticationContext [e] w
      ++ eventCalls authenticationContext es
           (afterEvents authenticationContext [e] w).
Proof.
  apply eventCalls_of_replay.
  rewrite afterEvents_cons, replay_app.
  rewrite <- afterEvents_one_replay. apply afterEvents_replay.
Qed.

Lemma eventCalls_nil w : eventCalls authenticationContext [] w = [].
Proof. apply eventCalls_of_replay. reflexivity. Qed.

(** What one event does to the hooks, and which calls it makes. *)
Lemma one_event e w :
  currentRegion (hooks (afterEvents authenticationContext [e] w))
    = currentRegion (hooks w) /\
  existsb writes_region (eventCalls authenticationContext [e] w) = false /\
  isAuthenticating (hooks (afterEvents authenticationContext [e] w))
    = isAuthenticating (hooks w) && negb (is_buttonPress e) /\
  mapLocked (hooks (afterEvents authenticationContext [e] w))
    = mapLocked (hooks w)
      && negb (existsb navigates (eventCalls authenticationContext [e] w)) /\
  existsb locks_map (eventCalls authenticationContext [e] w) = false /\
  markerLocation (hooks (afterEvents authenticationContext [e] w))
    = lastPressed [e] (markerLocation (hooks w)) /\
  username (hooks (afterEvents authenticationContext [e] w))
    = lastTyped [e] (username (hooks w)).
Proof.
  destruct e as [event|text|services].
  - rewrite (eventCalls_of_replay [MapPressed event] w
               [SetMarkerLocation (nativeEvent_coordinate event)] eq_refl).
    simpl. rewrite !andb_true_r. repeat split; reflexivity.
  - rewrite (eventCalls_of_replay [TextChanged text] w
               [SetUsername text; SetErrorMessage None] eq_refl).
    simpl. rewrite !andb_true_r. repeat split; reflexivity.
  - rewrite eventCalls_button, afterEvents_button.
    signUp_paths services authenticationContext w; along Hrun;
      try destruct authenticationContext; simpl;
      rewrite ?andb_true_r, ?andb_false_r; repeat split; reflexivity.
Qed.

(** The counts of the calls one event makes. *)
Lemma one_event_counts e w :
  count_calls is_lookup (eventCalls authenticationContext [e] w)
    = (if is_buttonPress e then 1 else 0) /\
  count_calls navigates (eventCalls authenticationContext [e] w)
    <= count_calls is_registration (eventCalls authenticationContext [e] w) /\
  count_calls is_registration (eventCalls authenticationContext [e] w)
    <= count_calls is_lookup (eventCalls authenticationContext [e] w) /\
  count_calls commits_identity (eventCalls authenticationContext [e] w)
    = match authenticationContext with
      | ContextObject =>
          count_calls navigates (eventCalls authenticationContext [e] w)
      | ContextNull => 0
      end.
Proof.
  destruct e as [event|text|services].
  - rewrite (eventCalls_of_replay [MapPressed event] w
               [SetMarkerLocation (nativeEvent_coordinate event)] eq_refl).
    destruct authenticationContext; cbn; repeat split; lia.
  - rewrite (eventCalls_of_replay [TextChanged text] w
               [SetUsername text; SetErrorMessage None] eq_refl).
    destruct authenticationContext; cbn; repeat split; lia.
  - rewrite eventCalls_button.
    signUp_paths services authenticationContext w; along Hrun;
      destruct authenticationContext; cbn; repeat split; lia.
Qed.

Lemma count_calls_app p cs1 cs2 :
  count_calls p (cs1 ++ cs2) = count_calls p cs1 + count_calls p cs2.
Proof. unfold count_calls. now rewrite filter_app, length_app. Qed.

End Events.

(** X7.  No handler writes the region: after any sequence of map presses,
    text changes and button presses, whatever the remote calls answer,
    [currentRegion] is what it was and no [setCurrentRegion] call was made.
    A map press moves the marker and leaves the map where it is. *)
Theorem events_keep_region :
  forall authenticationContext es w,
    currentRegion (hooks (afterEvents authenticationContext es w))
      = currentRegion (hooks w) /\
    existsb writes_region (eventCalls authenticationContext es w) = false.
Proof.
  intros ctx es. induction es as [|e es IH]; intro w.
  - rewrite eventCalls_nil. split; reflexivity.
  - rewrite afterEvents_cons, eventCalls_cons, existsb_app.
    destruct (IH (afterEvents ctx [e] w)) as [Hregion Hcalls].
    destruct (one_event ctx e w) as (Hregion1 & Hcalls1 & _).
    rewrite Hregion, Hregion1, Hcalls, Hcalls1. split; reflexivity.
Qed.

(** X8.  The flag [isAuthenticating] is never left set: after any sequence
    of events that holds a button press it is false, and a sequence without
    one leaves it as it was. *)
Theorem events_leave_idle :
  forall authenticationContext es w,
    isAuthenticating (hooks (afterEvents authenticationContext es w))
      = isAuthenticating (hooks w) && negb (existsb is_buttonPress es).
Proof.
  intros ctx es. induction es as [|e es IH]; intro w.
  - simpl. now rewrite andb_true_r.
  - rewrite afterEvents_cons, IH.
    destruct (one_event ctx e w) as (_ & _ & Hbusy & _).
    rewrite Hbusy. simpl.
    destruct (isAuthenticating (hooks w)), (is_buttonPress e),
      (existsb is_buttonPress es); reflexivity.
Qed.

(** X9.  The map is unlocked by a successful sign-up and by nothing else,
    and it is never locked again: after any sequence of events [mapLocked]
    is true exactly when it was true before and no navigation call was
    made, and no call [setMapLocked(true)] was made. *)
Theorem events_unlock_map_on_success :
  forall authenticationContext es w,
    mapLocked (hooks (afterEvents authenticationContext es w))
      = mapLocked (hooks w)
        && negb (existsb navigates (eventCalls authenticationContext es w)) /\
    existsb locks_map (eventCalls authenticationContext es w) = false.
Proof.
  intros ctx es. induction es as [|e es IH]; intro w.
  - rewrite eventCalls_nil. simpl. now rewrite andb_true_r.
  - rewrite afterEvents_cons, eventCalls_cons, !existsb_app.
    destruct (IH (afterEvents ctx [e] w)) as [Hlock Hcalls].
    destruct (one_event ctx e w) as (_ & _ & _ & Hlock1 & Hcalls1 & _).
    rewrite Hlock, Hlock1, Hcalls, Hcalls1. split; [|reflexivity].
    destruct (mapLocked (hooks w)),
      (existsb navigates (eventCalls ctx [e] w)),
      (existsb navigates (eventCalls ctx es (afterEvents ctx [e] w)));
      reflexivity.
Qed.

(** X10.  Over any sequence of events the lookup is made once for each
    press of the button, there are at most as many registration calls as
    lookups and at most as many navigation calls as registration calls.
    With a context object every navigation call comes with one commit of
    the identity; with a null context no commit is ever made. *)
Theorem events_call_counts :
  forall authenticationContext es w,
    count_calls is_lookup (eventCalls authenticationContext es w)
      = length (filter is_buttonPress es) /\
    count_calls navigates (eventCalls authenticationContext es w)
      <= count_calls is_registration (eventCalls authenticationContext es w) /\
    count_calls is_registration (eventCalls authenticationContext es w)
      <= count_calls is_lookup (eventCalls authenticationContext es w) /\
    count_calls commits_identity (eventCalls authenticationContext es w)
      = match authenticationContext with
        | ContextObject =>
            count_calls navigates (eventCalls authenticationContext es w)
        | ContextNull => 0
        end.
Proof.
  intros ctx es. induction es as [|e es IH]; intro w.
  - rewrite eventCalls_nil. destruct ctx; cbn; repeat split; lia.
  - rewrite eventCalls_cons, !count_calls_app.
    destruct (IH (afterEvents ctx [e] w)) as (Hl & Hn & Hr & Hc).
    destruct (one_event_counts ctx e w) as (Hl1 & Hn1 & Hr1 & Hc1).
    rewrite Hl, Hl1, Hc, Hc1. simpl.
    destruct ctx, (is_buttonPress e); simpl; repeat split; lia.
Qed.

(** The marker and the username after a sequence of events. *)
Lemma afterEvents_inputs authenticationContext es :
  forall w,
    markerLocation (hooks (afterEvents authenticationContext es w))
      = lastPressed es (markerLocation (hooks w)) /\
    username (hooks (afterEvents authenticationContext es w))
      = lastTyped es (username (hooks w)).
Proof.
  induction es as [|e es IH]; intro w.
  - split; reflexivity.
  - rewrite afterEvents_cons.
    destruct (IH (afterEvents authenticationContext [e] w)) as [Hm Hu].
    destruct (one_event authenticationContext e w)
      as (_ & _ & _ & _ & _ & Hm1 & Hu1).
    rewrite Hm, Hu, Hm1, Hu1. destruct e; split; reflexivity.
Qed.

(** X11.  What a press of the button submits is what was entered last:
    after any sequence of events, the lookup is made for the text of the
    last change of the input and, when it is fulfilled, the registration
    carries the coordinate of the last map press or point-of-interest tap;
    earlier presses and texts, and runs in between, leave no trace in it.
    Without a map press the coordinate is the marker from before, without a
    change the text from before. *)
Theorem button_submits_last_input :
  forall authenticationContext es services w,
    filter is_lookup
      (signUpCalls services authenticationContext
         (afterEvents authenticationContext es w))
      = [GetGitHubUserInfo (lastTyped es (username (hooks w)))] /\
    filter is_registration
      (signUpCalls services authenticationContext
         (afterEvents authenticationContext es w))
      = match getGitHubUserInfo services (lastTyped es (username (hooks w)))
        with
        | Fulfilled fromGitHub =>
            [PostUser
               (newUser fromGitHub
                  (lastPressed es (markerLocation (hooks w))))]
        | Rejected _ => []
        end.
Proof.
  intros ctx es services w.
  destruct (afterEvents_inputs ctx es w) as [Hm Hu].
  rewrite <- Hm, <- Hu.
  remember (afterEvents ctx es w) as w1 eqn:Hw1. clear Hw1 Hm Hu.
  signUp_paths services ctx w1; along Hrun; try destruct ctx;
    split; reflexivity.
Qed.

(** ** A run with other handlers in between *)

Lemma dispatchAll_eq authenticationContext es w :
  dispatchAll authenticationContext es w
    = (tt, afterEvents authenticationContext es w).
Proof.
  unfold afterEvents.
  destruct (dispatchAll authenticationContext es w) as [[] w'].
  reflexivity.
Qed.

(** With nothing in between, the run is [handleSignUp]. *)
Lemma handleSignUpMeanwhile_nothing services authenticationContext w :
  handleSignUpMeanwhile services authenticationContext (ret tt) (ret tt) w
    = handleSignUp services authenticationContext w.
Proof. reflexivity. Qed.

(** Map presses and text changes leave [isAuthenticating] alone. *)
Lemma events_keep_busy authenticationContext es :
  forall w,
    existsb is_buttonPress es = false ->
    forallb keeps_busy (eventCalls authenticationContext es w) = true.
Proof.
  induction es as [|e es IH]; intros w Hnone.
  - rewrite eventCalls_nil. reflexivity.
  - simpl in Hnone. apply orb_false_elim in Hnone as [He Hes].
    rewrite eventCalls_cons, forallb_app, (IH _ Hes), andb_true_r.
    destruct e as [event|text|services]; [| |discriminate He].
    + rewrite (eventCalls_of_replay authenticationContext
                 [MapPressed event] w
                 [SetMarkerLocation (nativeEvent_coordinate event)] eq_refl).
      reflexivity.
    + rewrite (eventCalls_of_replay authenticationContext
                 [TextChanged text] w
                 [SetUsername text; SetErrorMessage None] eq_refl).
      reflexivity.
Qed.

Lemma perform_keeps_busy c w :
  keeps_busy c = true ->
  isAuthenticating (hooks (perform c w)) = isAuthenticating (hooks w).
Proof. destruct c; intro H; try discriminate H; reflexivity. Qed.

Lemma worlds_keep_busy cs :
  forall w,
    forallb keeps_busy cs = true ->
    isAuthenticating (hooks w) = true ->
    Forall (fun x => isAuthenticating (hooks x) = true) (worlds cs w) /\
    isAuthenticating (hooks (replay cs w)) = true.
Proof.
  induction cs as [|c cs IH]; intros w Hquiet Hbusy; simpl.
  - split; [constructor | exact Hbusy].
  - simpl in Hquiet. apply andb_prop in Hquiet as [Hc Hcs].
    assert (Hbusy' : isAuthenticating (hooks (perform c w)) = true)
      by (rewrite (perform_keeps_busy c w Hc); exact Hbusy).
    destruct (IH (perform c w) Hcs Hbusy') as [Hall Hlast].
    split; [constructor; assumption | exact Hlast].
Qed.

Lemma intermediate_snoc cs c :
  forall w, intermediate (cs ++ [c]) w = worlds cs w.
Proof.
  induction cs as [|a cs IH]; intro w.
  - reflexivity.
  - change (intermediate ((a :: cs) ++ [c]) w)
      with (match cs ++ [c] with
            | [] => []
            | _ :: _ => perform a w :: intermediate (cs ++ [c]) (perform a w)
            end).
    destruct (cs ++ [c]) eqn:Hsnoc.
    + destruct cs; discriminate Hsnoc.
    + rewrite IH. reflexivity.
Qed.

Lemma keeps_busy_counts cs :
  forallb keeps_busy cs = true ->
  count_calls is_busy_set cs = 0 /\ count_calls is_busy_reset cs = 0.
Proof.
  unfold count_calls. induction cs as [|c cs IH]; intro Hquiet.
  - split; reflexivity.
  - simpl in Hquiet. apply andb_prop in Hquiet as [Hc Hcs].
    destruct (IH Hcs) as [Hset Hreset].
    destruct c; try discriminate Hc; simpl; split; assumption.
Qed.

(** A run whose calls are one [setIsAuthenticating(true)], calls that leave
    the flag alone, and one [setIsAuthenticating(false)]. *)
Lemma busy_shape mid w :
  forallb keeps_busy mid = true ->
  hd_error (SetIsAuthenticating true :: mid ++ [SetIsAuthenticating false])
    = Some (SetIsAuthenticating true) /\
  count_calls is_busy_set
    (SetIsAuthenticating true :: mid ++ [SetIsAuthenticating false]) = 1 /\
  Forall (fun x => isAuthenticating (hooks x) = true)
    (intermediate
       (SetIsAuthenticating true :: mid ++ [SetIsAuthenticating false]) w) /\
  last (SetIsAuthenticating true :: mid ++ [SetIsAuthenticating false])
       (SetIsAuthenticating true)
    = SetIsAuthenticating false /\
  count_calls is_busy_reset
    (SetIsAuthenticating true :: mid ++ [SetIsAuthenticating false]) = 1 /\
  isAuthenticating
    (hooks (replay
              (SetIsAuthenticating true :: mid ++ [SetIsAuthenticating false])
              w)) = false.
Proof.
  intro Hquiet.
  destruct (keeps_busy_counts mid Hquiet) as [Hset Hreset].
  split; [reflexivity|]. split.
  { change (SetIsAuthenticating true :: mid ++ [SetIsAuthenticating false])
      with ([SetIsAuthenticating true] ++ mid ++ [SetIsAuthenticating false]).
    rewrite !count_calls_app, Hset. reflexivity. }
  split.
  { change (SetIsAuthenticating true :: mid ++ [SetIsAuthenticating false])
      with ((SetIsAuthenticating true :: mid) ++ [SetIsAuthenticating false]).
    rewrite intermediate_snoc. simpl. constructor; [reflexivity|].
    apply worlds_keep_busy; [exact Hquiet | reflexivity]. }
  split.
  { change (SetIsAuthenticating true :: mid ++ [SetIsAuthenticating false])
      with ((SetIsAuthenticating true :: mid) ++ [SetIsAuthenticating false]).
    apply last_last. }
  split.
  { change (SetIsAuthenticating true :: mid ++ [SetIsAuthenticating false])
      with ([SetIsAuthenticating true] ++ mid ++ [SetIsAuthenticating false]).
    rewrite !count_calls_app, Hreset. reflexivity. }
  change (SetIsAuthenticating true :: mid ++ [SetIsAuthenticating false])
    with ((SetIsAuthenticating true :: mid) ++ [SetIsAuthenticating false]).
  rewrite replay_app. reflexivity.
Qed.

Lemma replay_cons c cs w : replay (c :: cs) w = replay cs (perform c w).
Proof. reflexivity. Qed.

(** The calls of a run with map presses and text changes in between. *)
Lemma meanwhile_shape services authenticationContext es1 es2 w :
  existsb is_buttonPress es1 = false ->
  existsb is_buttonPress es2 = false ->
  exists mid,
    forallb keeps_busy mid = true /\
    handleSignUpMeanwhile services authenticationContext
      (dispatchAll authenticationContext es1)
      (dispatchAll authenticationContext es2) w
    = ((Fulfilled tt, Fulfilled tt),
       replay (SetIsAuthenticating true :: mid ++ [SetIsAuthenticating false])
              w).
Proof.
  intros Hes1 Hes2.
  set (user := username (hooks w)).
  set (marker := markerLocation (hooks w)).
  set (w1 := perform (GetGitHubUserInfo user)
               (perform (SetIsAuthenticating true) w)).
  set (cs1 := eventCalls authenticationContext es1 w1).
  assert (Hcs1 : forallb keeps_busy cs1 = true)
    by (apply events_keep_busy; exact Hes1).
  assert (Hw2 : afterEvents authenticationContext es1 w1 = replay cs1 w1)
    by apply afterEvents_replay.
  unfold handleSignUpMeanwhile, signUpChainMeanwhile, finally_, catch_, then_,
    resolve, reject, bind, rendered, call, ret.
  cbv beta iota zeta. fold user marker. fold w1.
  rewrite (dispatchAll_eq authenticationContext es1 w1), Hw2.
  cbv beta iota zeta.
  destruct (getGitHubUserInfo services user) as [fromGitHub|err];
    cbv beta iota zeta.
  - set (payload := newUser fromGitHub marker).
    set (w3 := perform (PostUser payload) (replay cs1 w1)).
    set (cs2 := eventCalls authenticationContext es2 w3).
    assert (Hcs2 : forallb keeps_busy cs2 = true)
      by (apply events_keep_busy; exact Hes2).
    assert (Hw4 : afterEvents authenticationContext es2 w3 = replay cs2 w3)
      by apply afterEvents_replay.
    rewrite (dispatchAll_eq authenticationContext es2 w3), Hw4.
    cbv beta iota zeta.
    destruct (postUser services payload) as [[]|err]; cbv beta iota zeta.
    + exists ([GetGitHubUserInfo user] ++ cs1 ++ [PostUser payload] ++ cs2
              ++ commitCalls authenticationContext user
              ++ [SetMapLocked false; NavigationReplace "Main"]).
      split.
      * rewrite !forallb_app, Hcs1, Hcs2.
        destruct authenticationContext; reflexivity.
      * rewrite replay_cons. simpl app at 1. rewrite replay_cons.
        fold w1. rewrite <- !app_assoc, replay_app.
        simpl app at 1. rewrite replay_cons. fold w3.
        rewrite !replay_app.
        destruct authenticationContext; reflexivity.
    + exists ([GetGitHubUserInfo user] ++ cs1 ++ [PostUser payload] ++ cs2
              ++ [SetErrorMessage (Some (shownMessage err))]).
      split.
      * rewrite !forallb_app, Hcs1, Hcs2. reflexivity.
      * rewrite replay_cons. simpl app at 1. rewrite replay_cons.
        fold w1. rewrite <- !app_assoc, replay_app.
        simpl app at 1. rewrite replay_cons. fold w3.
        rewrite !replay_app. unfold shownMessage.
        destruct (typeof_is_string err); reflexivity.
  - exists ([GetGitHubUserInfo user] ++ cs1
            ++ [SetErrorMessage
                  (Some (shownMessage
                           (if axios_isAxiosError err
                               && response_status_is_404 err
                            then StringError notFoundMessage
                            else err)))]).
    split.
    + rewrite !forallb_app, Hcs1. reflexivity.
    + rewrite replay_cons. simpl app at 1. rewrite replay_cons.
      fold w1. rewrite <- !app_assoc, replay_app. unfold shownMessage.
      destruct (axios_isAxiosError err && response_status_is_404 err);
        cbv beta iota zeta; [reflexivity|].
      destruct (typeof_is_string err); reflexivity.
Qed.

Lemma signUpMeanwhile_of_replay services authenticationContext d1 d2 w r cs :
  handleSignUpMeanwhile services authenticationContext d1 d2 w
    = (r, replay cs w) ->
  afterSignUpMeanwhile services authenticationContext d1 d2 w = replay cs w /\
  signUpMeanwhileCalls services authenticationContext d1 d2 w = cs.
Proof.
  intro H. unfold signUpMeanwhileCalls, afterSignUpMeanwhile. rewrite H.
  simpl. rewrite calls_replay, skipn_length_app. split; reflexivity.
Qed.

(** C4, as the code has it.  Take a run of [handleSignUp] during which the
    button is not pressed again, whatever map presses and text changes
    happen while its two remote calls are pending.  The calls from its
    start to its end begin with the one [setIsAuthenticating(true)]; the
    flag is true in every world passed through after it; the last call is
    the one [setIsAuthenticating(false)], whichever way the remote calls
    settle; the run ends with the flag false. *)
Theorem signUp_busy_unless_overlapped :
  forall services authenticationContext es1 es2 w,
    existsb is_buttonPress es1 = false ->
    existsb is_buttonPress es2 = false ->
    afterSignUpMeanwhile services authenticationContext
      (dispatchAll authenticationContext es1)
      (dispatchAll authenticationContext es2) w
    = replay (signUpMeanwhileCalls services authenticationContext
                (dispatchAll authenticationContext es1)
                (dispatchAll authenticationContext es2) w) w /\
    hd_error (signUpMeanwhileCalls services authenticationContext
                (dispatchAll authenticationContext es1)
                (dispatchAll authenticationContext es2) w)
    = Some (SetIsAuthenticating true) /\
    count_calls is_busy_set
      (signUpMeanwhileCalls services authenticationContext
         (dispatchAll authenticationContext es1)
         (dispatchAll authenticationContext es2) w) = 1 /\
    Forall (fun x => isAuthenticating (hooks x) = true)
      (intermediate
         (signUpMeanwhileCalls services authenticationContext
            (dispatchAll authenticationContext es1)
            (dispatchAll authenticationContext es2) w) w) /\
    last (signUpMeanwhileCalls services authenticationContext
            (dispatchAll authenticationContext es1)
            (dispatchAll authenticationContext es2) w)
         (SetIsAuthenticating true)
    = SetIsAuthenticating false /\
    count_calls is_busy_reset
      (signUpMeanwhileCalls services authenticationContext
         (dispatchAll authenticationContext es1)
         (dispatchAll authenticationContext es2) w) = 1 /\
    isAuthenticating
      (hooks (afterSignUpMeanwhile services authenticationContext
                (dispatchAll authenticationContext es1)
                (dispatchAll authenticationContext es2) w)) = false.
Proof.
  intros services ctx es1 es2 w Hes1 Hes2.
  destruct (meanwhile_shape services ctx es1 es2 w Hes1 Hes2)
    as (mid & Hquiet & Hrun).
  destruct (signUpMeanwhile_of_replay _ _ _ _ _ _ _ Hrun) as [Hafter Hcalls].
  rewrite Hafter, Hcalls.
  split; [reflexivity|]. apply busy_shape. exact Hquiet.
Qed.

Lemma signUp_busy_unless_overlapped_witness :
  Forall (fun x => isAuthenticating (hooks x) = true)
    (intermediate
       (signUpMeanwhileCalls Sample.online ContextObject
          (dispatchAll ContextObject
             [MapPressed (MapPressEvent Sample.calgary);
              TextChanged "octocat2"])
          (dispatchAll ContextObject [TextChanged "octocat3"])
          (Sample.world Sample.typed))
       (Sample.world Sample.typed)) /\
  count_calls is_busy_reset
    (signUpMeanwhileCalls Sample.online ContextObject
       (dispatchAll ContextObject
          [MapPressed (MapPressEvent Sample.calgary);
           TextChanged "octocat2"])
       (dispatchAll ContextObject [TextChanged "octocat3"])
       (Sample.world Sample.typed)) = 1.
Proof.
  destruct (signUp_busy_unless_overlapped Sample.online ContextObject
              [MapPressed (MapPressEvent Sample.calgary);
               TextChanged "octocat2"]
              [TextChanged "octocat3"]
              (Sample.world Sample.typed) eq_refl eq_refl)
    as (_ & _ & _ & Hbusy & _ & Hreset & _).
  split; [exact Hbusy | exact Hreset].
Defined.

(** C4, as the spec words it, fails when two runs overlap.  The button is
    pressed, and pressed again while the first lookup is pending; the second
    run fails at once and its [finally] resets the flag.  The first run is
    still waiting for its lookup: from the sixth call on, through its own
    registration, commit and navigation, the flag is false. *)
Lemma signUp_overlap_resets_busy :
  Overlap.log
    = [SetIsAuthenticating true;
       GetGitHubUserInfo "octocat";
       SetIsAuthenticating true;
       GetGitHubUserInfo "octocat";
       SetErrorMessage (Some "Something went wrong. Please try again.");
       SetIsAuthenticating false;
       PostUser (newUser Sample.octocat Sample.calgary);
       AuthSetValue "octocat";
       SetMapLocked false;
       NavigationReplace "Main";
       SetIsAuthenticating false] /\
  Overlap.after = replay Overlap.log (Sample.world Sample.typed) /\
  map (fun x => isAuthenticating (hooks x))
      (intermediate Overlap.log (Sample.world Sample.typed))
    = [true; true; true; true; true; false; false; false; false; false] /\
  ~ Forall (fun x => isAuthenticating (hooks x) = true)
           (intermediate Overlap.log (Sample.world Sample.typed)).
Proof.
  split; [reflexivity|]. split; [reflexivity|]. split; [reflexivity|].
  intro Hall.
  apply (Forall_map (fun x => isAuthenticating (hooks x))
                    (fun b => b = true)) in Hall.
  change (Forall (fun b => b = true)
            [true; true; true; true; true;
             false; false; false; false; false]) in Hall.
  do 5 (apply Forall_inv_tail in Hall).
  apply Forall_inv in Hall. discriminate Hall.
Qed.
